(** * The wave plane of [src/App.js]

    A shallow embedding of the one source file of the repository: the
    [WaveShaderMaterial] shader pair (GLSL, embedded in the JavaScript as
    template strings), the [Wave] component with its per-frame callback, and
    the [Scene] and [App] components around it.

    GLSL [float]s are kept abstract (class [Float]): the shader only adds and
    multiplies them and writes decimal literals, and nothing below depends on
    how a GPU rounds.  The noise function [snoise3] is pulled in by a glslify
    pragma from the package glsl-noise and is not part of the source file; the
    shader is therefore parameterised by it. *)

From Stdlib Require Import ZArith QArith Qround Qreduction Qabs Qminmax.
From Stdlib Require Import List String.
Import ListNotations.

Set Implicit Arguments.

(** ** GLSL values *)

Module GLSL.

(** The scalar type [float] with the three things the shaders do with it:
    [+], [*] and decimal literals ([flit q] is the float a literal of exact
    value [q] denotes). *)
Class Float (F : Type) : Type := {
  fadd : F -> F -> F;
  fmul : F -> F -> F;
  flit : Q -> F
}.

Record vec2 (F : Type) : Type := Vec2 { x2 : F; y2 : F }.
Record vec3 (F : Type) : Type := Vec3 { x3 : F; y3 : F; z3 : F }.
Record vec4 (F : Type) : Type := Vec4 { x4 : F; y4 : F; z4 : F; w4 : F }.

(** A [mat4] is stored by columns, as GLSL does. *)
Record mat4 (F : Type) : Type := Mat4 {
  col0 : vec4 F; col1 : vec4 F; col2 : vec4 F; col3 : vec4 F
}.

Section Ops.
Context {F : Type} {Fl : Float F}.

(** [vec4(v, w)] for a [vec3] v. *)
Definition vec4_of_vec3 (v : vec3 F) (w : F) : vec4 F :=
  Vec4 (x3 v) (y3 v) (z3 v) w.

(** The swizzle [.rgb]. *)
Definition rgb (c : vec4 F) : vec3 F := Vec3 (x4 c) (y4 c) (z4 c).

(** [v + s] for a [vec2] v and a [float] s: the scalar is added to each
    component. *)
Definition vec2_add_float (v : vec2 F) (s : F) : vec2 F :=
  Vec2 (fadd (x2 v) s) (fadd (y2 v) s).

(** [m * v]: the linear combination of the columns of [m]. *)
Definition dot_row (a b c d : F) (v : vec4 F) : F :=
  fadd (fadd (fadd (fmul a (x4 v)) (fmul b (y4 v))) (fmul c (z4 v)))
       (fmul d (w4 v)).

Definition mat4_mul_vec4 (m : mat4 F) (v : vec4 F) : vec4 F :=
  Vec4 (dot_row (x4 (col0 m)) (x4 (col1 m)) (x4 (col2 m)) (x4 (col3 m)) v)
       (dot_row (y4 (col0 m)) (y4 (col1 m)) (y4 (col2 m)) (y4 (col3 m)) v)
       (dot_row (z4 (col0 m)) (z4 (col1 m)) (z4 (col2 m)) (z4 (col3 m)) v)
       (dot_row (w4 (col0 m)) (w4 (col1 m)) (w4 (col2 m)) (w4 (col3 m)) v).

(** [a * b] for two matrices: column [j] of the product is [a * col_j b]. *)
Definition mat4_mul (a b : mat4 F) : mat4 F :=
  Mat4 (mat4_mul_vec4 a (col0 b)) (mat4_mul_vec4 a (col1 b))
       (mat4_mul_vec4 a (col2 b)) (mat4_mul_vec4 a (col3 b)).
End Ops.

End GLSL.
Import GLSL.

(** ** The shader material *)

(** [THREE.Color]: built from three channels ([new THREE.Color(r, g, b)]) or
    set from a CSS colour name (the prop [uColor={"hotpink"}]). *)
Inductive Color (F : Type) : Type :=
| Color_rgb (r g b : F)
| Color_name (name : string).
Arguments Color_name {F} name.

(** [THREE.Texture]: [new THREE.Texture()] holds no image; the loader
    produces one that does. *)
Inductive Texture (Image : Type) : Type :=
| Texture_new
| Texture_image (image : Image).
Arguments Texture_new {Image}.

(** The uniforms object handed to [shaderMaterial]: the JavaScript side of
    the material, and what both shader stages see as [uniform]s. *)
Record Uniforms (F Image : Type) : Type := mkUniforms {
  uTime : F;
  uColor : Color F;
  uTexture : Texture Image
}.

(** The two matrices three.js supplies to every vertex shader. *)
Record Builtins (F : Type) : Type := mkBuiltins {
  projectionMatrix : mat4 F;
  modelViewMatrix : mat4 F
}.

(** Per-vertex attributes supplied by the geometry. *)
Record Attributes (F : Type) : Type := mkAttributes {
  position : vec3 F;
  uv : vec2 F
}.

(** The [varying]s: written by the vertex stage, read by the fragment
    stage. *)
Record Varyings (F : Type) : Type := mkVaryings {
  vUv : vec2 F;
  vWave : F
}.

(** What the vertex stage leaves behind. *)
Record VertexOut (F : Type) : Type := mkVertexOut {
  gl_Position : vec4 F;
  varyings : Varyings F
}.

Section WaveShaderMaterial.
Local Open Scope Q_scope.
Context {F : Type} {Fl : Float F}.
Variable Image : Type.
(** [#pragma glslify: snoise3 = require(glsl-noise/simplex/3d)] *)
Variable snoise3 : vec3 F -> F.
(** [texture2D(sampler, coord)]: whatever the GPU's sampler returns. *)
Variable texture2D : Texture Image -> vec2 F -> vec4 F.

(** The first argument of [shaderMaterial]: the defaults. *)
Definition WaveShaderMaterial : Uniforms F Image :=
  {| uTime := flit 0.0;
     uColor := Color_rgb (flit 0.0) (flit 0.0) (flit 0.0);
     uTexture := Texture_new |}.

(** [main] of the vertex shader.  [pos.z += e] rebinds [pos] with the third
    component replaced. *)
Definition vertexShader (u : Uniforms F Image) (b : Builtins F)
    (a : Attributes F) : VertexOut F :=
  let vUv := uv a in
  let pos := position a in
  let noiseFreq := flit 2.5 in
  let noiseAmp := flit 0.7 in
  let noisePos :=
    Vec3 (fadd (fmul (x3 pos) noiseFreq) (uTime u)) (y3 pos) (z3 pos) in
  let pos :=
    Vec3 (x3 pos) (y3 pos) (fadd (z3 pos) (fmul (snoise3 noisePos) noiseAmp)) in
  let vWave := z3 pos in
  {| gl_Position :=
       mat4_mul_vec4 (mat4_mul (projectionMatrix b) (modelViewMatrix b))
                     (vec4_of_vec3 pos (flit 1.0));
     varyings := {| vUv := vUv; vWave := vWave |} |}.

(** [main] of the fragment shader; the result is [gl_FragColor]. *)
Definition fragmentShader (u : Uniforms F Image) (v : Varyings F) : vec4 F :=
  let wave := fmul (vWave v) (flit 0.1) in
  let texture := rgb (texture2D (uTexture u) (vec2_add_float (vUv v) wave)) in
  vec4_of_vec3 texture (flit 1.0).

(** The two stages at a vertex: the fragment that covers a vertex receives
    that vertex's varyings unchanged. *)
Definition shade (u : Uniforms F Image) (b : Builtins F) (a : Attributes F)
    : vec4 F * vec4 F :=
  let o := vertexShader u b a in
  (gl_Position o, fragmentShader u (varyings o)).
End WaveShaderMaterial.

(** ** JavaScript and React values *)

(** What a JavaScript error carries is of no interest here: only which kind
    it is. *)
Inductive Error : Type :=
| TypeError (message : string)
| LoadError (url : string).

(** What running a piece of component code does: it returns a value, it
    suspends (React's protocol: a promise is thrown), or it throws an
    error. *)
Inductive Render (A : Type) : Type :=
| Return (a : A)
| Suspend
| Throw (e : Error).
Arguments Suspend {A}.
Arguments Throw {A} e.

Definition bind {A B : Type} (r : Render A) (k : A -> Render B) : Render B :=
  match r with
  | Return a => k a
  | Suspend => Suspend
  | Throw e => Throw e
  end.

(** The state of the one network request. *)
Inductive Loading (Image : Type) : Type :=
| Pending
| Loaded (image : Image)
| Failed (e : Error).
Arguments Pending {Image}.
Arguments Failed {Image} e.

(** [useLoader] belongs to @react-three/fiber, not to the source file.  That
    it suspends while the request is pending and returns the texture once it
    is loaded is the protocol [Suspense] relies on; what it does with a
    failed request is left open here. *)
Inductive FailurePolicy : Type :=
| StaySuspended
| Rethrow.

(** [THREE.Clock], as far as the callback reads it. *)
Record Clock (F : Type) : Type := mkClock { elapsedTime : F }.

Definition getElapsedTime {F : Type} (c : Clock F) : F := elapsedTime c.

(** The state object passed to a [useFrame] callback; the callback
    destructures [clock] from it. *)
Record RootState (F : Type) : Type := mkRootState { clock : Clock F }.

(** [<planeBufferGeometry args={[width, height, widthSegments,
    heightSegments]} />] *)
Record PlaneBufferGeometry : Type := mkPlane {
  width : Q;
  height : Q;
  widthSegments : Z;
  heightSegments : Z
}.

(** [<mesh>] with its two children. *)
Record Mesh (F Image : Type) : Type := mkMesh {
  geometry : PlaneBufferGeometry;
  material : Uniforms F Image
}.

(** The [camera] prop of [<Canvas>]. *)
Record Camera : Type := mkCamera { fov : Z; camera_position : Z * Z * Z }.

(** [<Canvas>]: its camera and the objects of its scene. *)
Record Canvas (F Image : Type) : Type := mkCanvas {
  camera : Camera;
  children : list (Mesh F Image)
}.

(** What [App] puts into the document. *)
Inductive DOM (F Image : Type) : Type :=
| h1 (text : string)
| canvas (c : Canvas F Image)
| text (s : string).
Arguments h1 {F Image} text.
Arguments text {F Image} s.

Section Components.
Local Open Scope Q_scope.
Context {F : Type} {Fl : Float F}.
Variable Image : Type.
Variable policy : FailurePolicy.

Definition url : string :=
  "https://images.unsplash.com/photo-1586788224331-947f68671cf1?ixlib=rb-1.2.1&ixid=MnwxMjA3fDB8MHxzZWFyY2h8MTJ8fG9yYW5nZXxlbnwwfHwwfHw%3D&auto=format&fit=crop&w=1000&q=60".

(** [useLoader(THREE.TextureLoader, [url])], destructured as [[image]]:
    one URL, one texture. *)
Definition useLoader (net : Loading Image) : Render (Texture Image) :=
  match net with
  | Pending => Suspend
  | Loaded image => Return (Texture_image image)
  | Failed e =>
      match policy with
      | StaySuspended => Suspend
      | Rethrow => Throw e
      end
  end.

(** [<waveShaderMaterial uColor=... uTexture=... />]: the defaults of
    [WaveShaderMaterial] with the two props written over them. *)
Definition waveShaderMaterial (uColor_prop : string)
    (uTexture_prop : Texture Image) : Uniforms F Image :=
  {| uTime := uTime (WaveShaderMaterial Image);
     uColor := Color_name uColor_prop;
     uTexture := uTexture_prop |}.

Definition planeBufferGeometry (args : Q * Q * Z * Z) : PlaneBufferGeometry :=
  let '(w, h, ws, hs) := args in
  {| width := w; height := h; widthSegments := ws; heightSegments := hs |}.

(** The callback [Wave] hands to [useFrame].  [ref.current] is [None]
    until the material is attached ([useRef()] starts it as undefined), and
    writing a property of undefined throws. *)
Definition Wave_useFrame (ref_current : option (Uniforms F Image))
    (state : RootState F) : Render (option (Uniforms F Image)) :=
  match ref_current with
  | None => Throw (TypeError "Cannot set properties of undefined (setting 'uTime')")
  | Some m =>
      Return (Some {| uTime := getElapsedTime (clock state);
                      uColor := uColor m;
                      uTexture := uTexture m |})
  end.

(** [Wave]: the element it returns once [useLoader] has returned. *)
Definition Wave (net : Loading Image) : Render (Mesh F Image) :=
  bind (useLoader net) (fun image =>
  Return {| geometry := planeBufferGeometry (0.4, 0.6, 16%Z, 16%Z);
            material := waveShaderMaterial "hotpink" image |}).

(** [<Suspense fallback={...}>]: a child that suspends is replaced by the
    fallback; an error is not caught. *)
Definition Suspense {A : Type} (fallback : list A) (child : Render A)
    : Render (list A) :=
  match child with
  | Return a => Return [a]
  | Suspend => Return fallback
  | Throw e => Throw e
  end.

(** [Scene]; [fallback={null}] renders nothing. *)
Definition Scene (net : Loading Image) : Render (Canvas F Image) :=
  bind (Suspense [] (Wave net)) (fun meshes =>
  Return {| camera := {| fov := 10; camera_position := (0, 0, 5)%Z |};
            children := meshes |}).

(** [App]: the fragment's children, in order.  The semicolon after
    [<Scene />] stands inside the JSX, where it is text. *)
Definition App (net : Loading Image) : Render (list (DOM F Image)) :=
  bind (Scene net) (fun c =>
  Return [h1 "Lorem Ipsum Dolor"; canvas c; text ";"]).

(** *** The page over time

    What the renderer keeps between events: the state of the request, the
    mesh it has created (React keeps the instance across re-renders, so the
    material keeps what the frame callback wrote), and the errors that left
    [App] uncaught. *)
Record Host : Type := mkHost {
  network : Loading Image;
  mounted : option (Mesh F Image);
  surfaced : list Error
}.

Inductive Event : Type :=
| LoadResolved (image : Image)
| LoadRejected (e : Error)
| Frame (state : RootState F).

Definition meshes_of (dom : list (DOM F Image)) : list (Mesh F Image) :=
  flat_map (fun d => match d with canvas c => children c | _ => [] end) dom.

(** Render [App] for the new state of the request and commit the result.
    An error that no component catches takes the rendered tree down and is
    reported. *)
Definition commit (net : Loading Image) (h : Host) : Host :=
  match App net with
  | Return dom =>
      {| network := net;
         mounted := match mounted h with
                    | Some m => Some m
                    | None => hd_error (meshes_of dom)
                    end;
         surfaced := surfaced h |}
  | Suspend => {| network := net; mounted := mounted h; surfaced := surfaced h |}
  | Throw e => {| network := net; mounted := None; surfaced := surfaced h ++ [e] |}
  end.

(** One display tick: the callbacks of the mounted components run.  [Wave]
    subscribes its callback when it is mounted, which is also when its ref is
    attached; while it is suspended it has neither mesh nor subscription.
    The ref and the material of the mesh are the same object, so what the
    callback writes through the ref is what the shader reads. *)
Definition frame (state : RootState F) (h : Host) : Host :=
  match mounted h with
  | None => h
  | Some m =>
      match Wave_useFrame (Some (material m)) state with
      | Return (Some m') =>
          {| network := network h;
             mounted := Some {| geometry := geometry m; material := m' |};
             surfaced := surfaced h |}
      | Return None => h
      | Suspend => h
      | Throw e =>
          {| network := network h; mounted := mounted h;
             surfaced := surfaced h ++ [e] |}
      end
  end.

(** A request settles once; later settlements are ignored. *)
Definition step (h : Host) (ev : Event) : Host :=
  match ev with
  | LoadResolved image =>
      match network h with
      | Pending => commit (Loaded image) h
      | _ => h
      end
  | LoadRejected e =>
      match network h with
      | Pending => commit (Failed e) h
      | _ => h
      end
  | Frame state => frame state h
  end.

(** The page as first rendered: the request has just been issued. *)
Definition start : Host :=
  commit Pending {| network := Pending; mounted := None; surfaced := [] |}.

Definition run (evs : list Event) : Host := fold_left step evs start.

Definition meshes (h : Host) : list (Mesh F Image) :=
  match mounted h with
  | Some m => [m]
  | None => []
  end.

(** The mesh of [Wave] around a loaded image, with [t] in [uTime]. *)
Definition wave_mesh (t : F) (image : Image) : Mesh F Image :=
  {| geometry := {| width := 0.4; height := 0.6;
                    widthSegments := 16; heightSegments := 16 |};
     material := {| uTime := t; uColor := Color_name "hotpink";
                    uTexture := Texture_image image |} |}.

(** What the page holds in each state of the request. *)
Definition consistent (h : Host) : Prop :=
  match network h with
  | Pending => mounted h = None /\ surfaced h = []
  | Loaded image =>
      (exists t, mounted h = Some (wave_mesh t image)) /\ surfaced h = []
  | Failed e =>
      mounted h = None
      /\ surfaced h = match policy with
                      | StaySuspended => []
                      | Rethrow => [e]
                      end
  end.
End Components.

Arguments Host F Image : clear implicits.
Arguments Event F Image : clear implicits.
Arguments LoadResolved {F Image} image.
Arguments LoadRejected {F Image} e.
Arguments Frame {F Image} state.
Arguments start {F Fl Image} policy.


(** ** Exact arithmetic

    One interpretation of [Float]: rationals kept in lowest terms, so that
    equal numbers are equal terms.  It is not the arithmetic of a GPU, which
    rounds: it serves only to evaluate the shader on a few concrete inputs,
    and no general statement about the shader is made in it. *)

Module Exact.
Local Open Scope Q_scope.

#[export] Instance Float_Q : Float Q := {|
  fadd := fun a b => Qred (a + b);
  fmul := fun a b => Qred (a * b);
  flit := Qred
|}.

(** A texture image as the colour found at each coordinate. *)
Definition Image : Type := vec2 Q -> vec4 Q.

(** Sampling: the image's colour; a texture without image samples as opaque
    black. *)
Definition texture2D (t : Texture Image) (coord : vec2 Q) : vec4 Q :=
  match t with
  | Texture_new => Vec4 0 0 0 1
  | Texture_image image => image coord
  end.

(** An image whose red and green channels are the coordinate itself. *)
Definition gradient_image : Image :=
  fun coord => Vec4 (x2 coord) (y2 coord) 0 1.

(** *** The simplex noise of glsl-noise

    [glsl-noise/simplex/3d.glsl] (Ian McEwan, Ashima Arts), the module the
    pragma of the vertex shader names, statement by statement, evaluated in
    exact arithmetic.  Swizzles are written out by component.

    The exact value is what a GPU computes only where rounding cannot move
    an argument of [floor] or [step] across a boundary: the literal
    0.142857142857 lies below 1/7, so away from such points [floor (j * n_)]
    can differ from the rounded evaluation.  At the origin every such
    argument is 0 or well inside its interval, and nothing below depends on
    the value anywhere else. *)

Definition floor (x : Q) : Q := inject_Z (Qfloor x).

(** [step(edge, x)]: 0.0 if [x < edge], else 1.0. *)
Definition step (edge x : Q) : Q := if Qlt_le_dec x edge then 0 else 1.

Definition map3 (f : Q -> Q) (v : vec3 Q) : vec3 Q :=
  Vec3 (Qred (f (x3 v))) (Qred (f (y3 v))) (Qred (f (z3 v))).

Definition zip3 (f : Q -> Q -> Q) (a b : vec3 Q) : vec3 Q :=
  Vec3 (Qred (f (x3 a) (x3 b))) (Qred (f (y3 a) (y3 b)))
       (Qred (f (z3 a) (z3 b))).

Definition map4 (f : Q -> Q) (v : vec4 Q) : vec4 Q :=
  Vec4 (Qred (f (x4 v))) (Qred (f (y4 v))) (Qred (f (z4 v)))
       (Qred (f (w4 v))).

Definition zip4 (f : Q -> Q -> Q) (a b : vec4 Q) : vec4 Q :=
  Vec4 (Qred (f (x4 a) (x4 b))) (Qred (f (y4 a) (y4 b)))
       (Qred (f (z4 a) (z4 b))) (Qred (f (w4 a) (w4 b))).

Definition dot3 (a b : vec3 Q) : Q :=
  Qred (x3 a * x3 b + y3 a * y3 b + z3 a * z3 b).

Definition dot4 (a b : vec4 Q) : Q :=
  Qred (x4 a * x4 b + y4 a * y4 b + z4 a * z4 b + w4 a * w4 b).

Definition mod289 (x : Q) : Q := x - floor (x * (1.0 / 289.0)) * 289.0.

Definition permute (x : vec4 Q) : vec4 Q :=
  map4 (fun x => mod289 (((x * 34.0) + 1.0) * x)) x.

Definition taylorInvSqrt (r : vec4 Q) : vec4 Q :=
  map4 (fun r => 1.79284291400159 - 0.85373472095314 * r) r.

Definition snoise (v : vec3 Q) : Q :=
  let Cx := 1.0 / 6.0 in
  let Cy := 1.0 / 3.0 in
  (* First corner *)
  let i := map3 (fun c => floor (c + dot3 v (Vec3 Cy Cy Cy))) v in
  let x0 := map3 (fun c => c + dot3 i (Vec3 Cx Cx Cx)) (zip3 Qminus v i) in
  (* Other corners *)
  let g := Vec3 (step (y3 x0) (x3 x0)) (step (z3 x0) (y3 x0))
                (step (x3 x0) (z3 x0)) in
  let l := map3 (fun c => 1.0 - c) g in
  let i1 := Vec3 (Qmin (x3 g) (z3 l)) (Qmin (y3 g) (x3 l)) (Qmin (z3 g) (y3 l)) in
  let i2 := Vec3 (Qmax (x3 g) (z3 l)) (Qmax (y3 g) (x3 l)) (Qmax (z3 g) (y3 l)) in
  let x1 := map3 (fun c => c + Cx) (zip3 Qminus x0 i1) in
  let x2 := map3 (fun c => c + Cy) (zip3 Qminus x0 i2) in
  let x3_ := map3 (fun c => c - 0.5) x0 in
  (* Permutations *)
  let i := map3 mod289 i in
  let p :=
    permute (zip4 Qplus
      (map4 (fun c => c + x3 i)
        (permute (zip4 Qplus
          (map4 (fun c => c + y3 i)
            (permute (map4 (fun c => z3 i + c)
                           (Vec4 0.0 (z3 i1) (z3 i2) 1.0))))
          (Vec4 0.0 (y3 i1) (y3 i2) 1.0))))
      (Vec4 0.0 (x3 i1) (x3 i2) 1.0)) in
  (* Gradients: 7x7 points over a square, mapped onto an octahedron *)
  let n_ := 0.142857142857 in
  let ns := Vec3 (n_ * 2.0 - 0.0) (n_ * 0.5 - 1.0) (n_ * 1.0 - 0.0) in
  let j := map4 (fun p => p - 49.0 * floor (p * z3 ns * z3 ns)) p in
  let x_ := map4 (fun j => floor (j * z3 ns)) j in
  let y_ := zip4 (fun j x_ => floor (j - 7.0 * x_)) j x_ in
  let x := map4 (fun x_ => x_ * x3 ns + y3 ns) x_ in
  let y := map4 (fun y_ => y_ * x3 ns + y3 ns) y_ in
  let h := zip4 (fun x y => 1.0 - Qabs x - Qabs y) x y in
  let b0 := Vec4 (x4 x) (y4 x) (x4 y) (y4 y) in
  let b1 := Vec4 (z4 x) (w4 x) (z4 y) (w4 y) in
  let s0 := map4 (fun b => floor b * 2.0 + 1.0) b0 in
  let s1 := map4 (fun b => floor b * 2.0 + 1.0) b1 in
  let sh := map4 (fun h => - step h 0.0) h in
  let a0 := zip4 Qplus (Vec4 (x4 b0) (z4 b0) (y4 b0) (w4 b0))
                 (zip4 Qmult (Vec4 (x4 s0) (z4 s0) (y4 s0) (w4 s0))
                             (Vec4 (x4 sh) (x4 sh) (y4 sh) (y4 sh))) in
  let a1 := zip4 Qplus (Vec4 (x4 b1) (z4 b1) (y4 b1) (w4 b1))
                 (zip4 Qmult (Vec4 (x4 s1) (z4 s1) (y4 s1) (w4 s1))
                             (Vec4 (z4 sh) (z4 sh) (w4 sh) (w4 sh))) in
  let p0 := Vec3 (x4 a0) (y4 a0) (x4 h) in
  let p1 := Vec3 (z4 a0) (w4 a0) (y4 h) in
  let p2 := Vec3 (x4 a1) (y4 a1) (z4 h) in
  let p3 := Vec3 (z4 a1) (w4 a1) (w4 h) in
  (* Normalise gradients *)
  let norm := taylorInvSqrt
                (Vec4 (dot3 p0 p0) (dot3 p1 p1) (dot3 p2 p2) (dot3 p3 p3)) in
  let p0 := map3 (fun c => c * x4 norm) p0 in
  let p1 := map3 (fun c => c * y4 norm) p1 in
  let p2 := map3 (fun c => c * z4 norm) p2 in
  let p3 := map3 (fun c => c * w4 norm) p3 in
  (* Mix final noise value *)
  let m := map4 (fun d => Qmax (0.6 - d) 0.0)
             (Vec4 (dot3 x0 x0) (dot3 x1 x1) (dot3 x2 x2) (dot3 x3_ x3_)) in
  let m := zip4 Qmult m m in
  Qred (42.0 * dot4 (zip4 Qmult m m)
                    (Vec4 (dot3 p0 x0) (dot3 p1 x1) (dot3 p2 x2) (dot3 p3 x3_))).

End Exact.

(** ** The plane's centre, and the arithmetic it needs *)

Section Centre.
Local Open Scope Q_scope.
Context {F : Type} {Fl : Float F}.

(** The vertex in the middle of the plane: three.js places it at the origin
    of model space with texture coordinate (0.5, 0.5). *)
Definition centre : Attributes F :=
  {| position := Vec3 (flit 0) (flit 0) (flit 0);
     uv := Vec2 (flit 0.5) (flit 0.5) |}.

(** Four sums and products with zero, as the two stages meet them at the
    centre at time 0.  They hold for IEEE floats and for exact arithmetic
    alike. *)
Record centre_arithmetic : Prop := {
  noise_x_at_zero : fadd (fmul (flit 0) (flit 2.5)) (flit 0) = flit 0;
  zero_displacement : fadd (flit 0) (fmul (flit 0) (flit 0.7)) = flit 0;
  zero_wave : fmul (flit 0) (flit 0.1) = flit 0;
  zero_offset : fadd (flit 0.5) (flit 0) = flit 0.5
}.
End Centre.

(** ** Concrete inputs *)

Module Inputs.
Import Exact.
Local Open Scope Q_scope.

(** The matrices three.js derives from the camera of [Scene] (field of view
    10 degrees, at (0, 0, 5), looking at the origin; aspect 1, near 0.1, far
    1000), rounded: 11.43 is 1 / tan(5 degrees). *)
Definition camera_builtins : Builtins Q :=
  {| projectionMatrix :=
       Mat4 (Vec4 11.43 0 0 0) (Vec4 0 11.43 0 0)
            (Vec4 0 0 (-1.0002) (-1)) (Vec4 0 0 (-0.20002) 0);
     modelViewMatrix :=
       Mat4 (Vec4 1 0 0 0) (Vec4 0 1 0 0) (Vec4 0 0 1 0) (Vec4 0 0 (-5) 1) |}.

(** The top right corner of the 0.4 by 0.6 plane. *)
Definition corner : Attributes Q :=
  {| position := Vec3 0.2 0.3 0; uv := Vec2 1 1 |}.

(** A material as [Wave] creates it, around the gradient image. *)
Definition pink_material (t : Q) : Uniforms Q Image :=
  {| uTime := t; uColor := Color_name "hotpink";
     uTexture := Texture_image gradient_image |}.

(** A noise function that vanishes at the origin. *)
Definition ramp (v : vec3 Q) : Q := Qred (x3 v + y3 v + z3 v).

Definition tick (t : Q) : Event Q Image :=
  Frame {| clock := {| elapsedTime := t |} |}.

End Inputs.

(** ** Reading a trace *)

Section Traces.
Context {F : Type}.
Variable Image : Type.

(** The elapsed time carried by the last frame of [evs], or [t] when [evs]
    holds no frame. *)
Fixpoint last_frame_time (evs : list (Event F Image)) (t : F) : F :=
  match evs with
  | [] => t
  | Frame state :: evs => last_frame_time evs (getElapsedTime (clock state))
  | _ :: evs => last_frame_time evs t
  end.
End Traces.

(** ** Drawing a frame *)

Section Drawing.
Context {F : Type} {Fl : Float F}.
Variable Image : Type.
Variable snoise3 : vec3 F -> F.
Variable texture2D : Texture Image -> vec2 F -> vec4 F.

End Drawing.

(** * Properties of the shader *)

Section ShaderProperties.
Local Open Scope Q_scope.
Context {F : Type} {Fl : Float F}.
Variable Image : Type.
Variable snoise3 : vec3 F -> F.
Variable texture2D : Texture Image -> vec2 F -> vec4 F.

Lemma vertexShader_varyings (u : Uniforms F Image) b a :
  varyings (vertexShader snoise3 u b a) =
  {| vUv := uv a;
     vWave :=
       fadd (z3 (position a))
            (fmul (snoise3 (Vec3 (fadd (fmul (x3 (position a)) (flit 2.5))
                                       (uTime u))
                                 (y3 (position a)) (z3 (position a))))
                  (flit 0.7)) |}.
Proof. reflexivity. Qed.

(** C1, as the code has it: the vertex stage displaces the model-space
    position (x, y, z) to (x, y, z + snoise3(x*2.5 + t, y, z) * 0.7); the
    position it outputs is that point taken through the model-view and
    projection matrices, projectionMatrix * modelViewMatrix * (x, y, z', 1);
    the displaced z and the vertex's UV coordinate are the two varyings. *)
Theorem vertexShader_displaces_then_projects :
  forall (t : F) (c : Color F) (tex : Texture Image) (b : Builtins F)
         (x y z : F) (st : vec2 F),
    let z' := fadd z (fmul (snoise3 (Vec3 (fadd (fmul x (flit 2.5)) t) y z))
                           (flit 0.7)) in
    vertexShader snoise3 (mkUniforms t c tex) b (mkAttributes (Vec3 x y z) st)
    = {| gl_Position :=
           mat4_mul_vec4 (mat4_mul (projectionMatrix b) (modelViewMatrix b))
                         (Vec4 x y z' (flit 1.0));
         varyings := {| vUv := st; vWave := z' |} |}.
Proof.
  intros t c tex b x y z st z'. unfold vertexShader, vec4_of_vec3.
  cbn [position uv uTime x3 y3 z3]. reflexivity.
Qed.

(** C2: the fragment stage computes wave = vWave * 0.1, samples the bound
    texture at vUv + (wave, wave), and outputs the sample's red, green and
    blue with alpha 1.0, whatever the sample's own alpha is. *)
Theorem fragmentShader_samples_offset :
  forall (u : Uniforms F Image) (st : vec2 F) (w : F),
    let wave := fmul w (flit 0.1) in
    let sample :=
      texture2D (uTexture u) (Vec2 (fadd (x2 st) wave) (fadd (y2 st) wave)) in
    fragmentShader texture2D u {| vUv := st; vWave := w |}
      = Vec4 (x4 sample) (y4 sample) (z4 sample) (flit 1.0).
Proof.
  intros u st w wave sample. reflexivity.
Qed.

Lemma fragmentShader_ignores_uColor (t : F) (c1 c2 : Color F)
    (tex : Texture Image) (v : Varyings F) :
  fragmentShader texture2D (mkUniforms t c1 tex) v
  = fragmentShader texture2D (mkUniforms t c2 tex) v.
Proof. reflexivity. Qed.

Lemma vertexShader_ignores_uColor (t : F) (c1 c2 : Color F)
    (tex : Texture Image) b a :
  vertexShader snoise3 (mkUniforms t c1 tex) b a
  = vertexShader snoise3 (mkUniforms t c2 tex) b a.
Proof. reflexivity. Qed.

(** C4: two runs that differ only in the tint colour [uColor] give every
    vertex the same position and every fragment the same colour. *)
Theorem uColor_has_no_effect :
  forall (t : F) (tex : Texture Image) (c1 c2 : Color F)
         (b : Builtins F) (a : Attributes F) (v : Varyings F),
    shade snoise3 texture2D (mkUniforms t c1 tex) b a
      = shade snoise3 texture2D (mkUniforms t c2 tex) b a
    /\ fragmentShader texture2D (mkUniforms t c1 tex) v
      = fragmentShader texture2D (mkUniforms t c2 tex) v.
Proof.
  intros t tex c1 c2 b a v. split.
  - unfold shade.
    rewrite (vertexShader_ignores_uColor t c1 c2 tex b a).
    now rewrite (fragmentShader_ignores_uColor t c1 c2 tex).
  - apply fragmentShader_ignores_uColor.
Qed.

(** C3, as the code has it.  Given the four sums and products with zero of
    [centre_arithmetic]: at elapsed time 0 the centre vertex samples the
    noise at the origin, and its fragment is the texture's sample at
    (0.5 + w, 0.5 + w) with w = (0 + snoise3(0,0,0) * 0.7) * 0.1, with alpha
    1.0; if the noise function is 0 at the origin, then w is 0 and the
    fragment is the texture's sample at (0.5, 0.5), with alpha 1.0. *)
Theorem centre_fragment :
  forall (c : Color F) (tex : Texture Image) (b : Builtins F),
    centre_arithmetic ->
    let n := snoise3 (Vec3 (flit 0) (flit 0) (flit 0)) in
    let w := fmul (fadd (flit 0) (fmul n (flit 0.7))) (flit 0.1) in
    snd (shade snoise3 texture2D (mkUniforms (flit 0) c tex) b centre)
      = vec4_of_vec3
          (rgb (texture2D tex (Vec2 (fadd (flit 0.5) w) (fadd (flit 0.5) w))))
          (flit 1.0)
    /\ (n = flit 0 ->
        w = flit 0
        /\ snd (shade snoise3 texture2D (mkUniforms (flit 0) c tex) b centre)
           = vec4_of_vec3 (rgb (texture2D tex (Vec2 (flit 0.5) (flit 0.5))))
                          (flit 1.0)).
Proof.
  intros c tex b [Hx Hz Hw Ho] n w.
  assert (Hfrag :
    snd (shade snoise3 texture2D (mkUniforms (flit 0) c tex) b centre)
    = vec4_of_vec3
        (rgb (texture2D tex (Vec2 (fadd (flit 0.5) w) (fadd (flit 0.5) w))))
        (flit 1.0)).
  { unfold shade, fragmentShader. cbn [snd].
    rewrite vertexShader_varyings. unfold centre.
    cbn [position uv x3 y3 z3 uTime uTexture vec2_add_float x2 y2 vUv vWave].
    rewrite Hx. reflexivity. }
  split; [exact Hfrag|].
  intros Hn.
  assert (Hw0 : w = flit 0).
  { unfold w. rewrite Hn, Hz. exact Hw. }
  split; [exact Hw0|].
  rewrite Hfrag, Hw0, Ho. reflexivity.
Qed.

End ShaderProperties.

(** * Properties of the components *)

Section ComponentProperties.
Local Open Scope Q_scope.
Context {F : Type} {Fl : Float F}.
Variable Image : Type.
Variable policy : FailurePolicy.

Lemma Wave_pending : Wave (F := F) policy (@Pending Image) = Suspend.
Proof. reflexivity. Qed.

Lemma Wave_loaded (image : Image) :
  Wave policy (Loaded image) = Return (wave_mesh (flit 0.0) image).
Proof. reflexivity. Qed.

Lemma App_pending :
  App (F := F) policy (@Pending Image)
  = Return [h1 "Lorem Ipsum Dolor";
            canvas {| camera := {| fov := 10; camera_position := (0, 0, 5)%Z |};
                      children := [] |};
            text ";"].
Proof. reflexivity. Qed.

Lemma App_loaded (image : Image) :
  App policy (Loaded image)
  = Return [h1 "Lorem Ipsum Dolor";
            canvas {| camera := {| fov := 10; camera_position := (0, 0, 5)%Z |};
                      children := [wave_mesh (flit 0.0) image] |};
            text ";"].
Proof. reflexivity. Qed.

Lemma App_renders_three_nodes (net : Loading Image) (dom : list (DOM F Image)) :
  App policy net = Return dom ->
  exists c, dom = [h1 "Lorem Ipsum Dolor"; canvas c; text ";"].
Proof.
  intros H. unfold App in H.
  destruct (Scene policy net) as [c | | e]; simpl in H;
    try discriminate.
  exists c. now inversion H.
Qed.

(** C9, evaluated: while the request is pending and once it is loaded alike,
    [App] renders three nodes: the heading, the canvas, and a text node
    holding the semicolon that follows [<Scene />] in the source. *)
Theorem App_renders_stray_semicolon :
  App (F := F) policy (@Pending Image)
    = Return [h1 "Lorem Ipsum Dolor";
              canvas {| camera := {| fov := 10;
                                     camera_position := (0, 0, 5)%Z |};
                        children := [] |};
              text ";"]
  /\ forall image : Image,
      App policy (Loaded image)
      = Return [h1 "Lorem Ipsum Dolor";
                canvas {| camera := {| fov := 10;
                                       camera_position := (0, 0, 5)%Z |};
                          children :=
                            [{| geometry := {| width := 0.4; height := 0.6;
                                               widthSegments := 16;
                                               heightSegments := 16 |};
                                material :=
                                  {| uTime := flit 0.0;
                                     uColor := Color_name "hotpink";
                                     uTexture := Texture_image image |} |}] |};
                text ";"].
Proof.
  split.
  - apply App_pending.
  - intros image. apply App_loaded.
Qed.

(** *** The frame callback *)

Lemma Wave_useFrame_mounted (m : Uniforms F Image) (state : RootState F) :
  Wave_useFrame (Some m) state
  = Return (Some {| uTime := getElapsedTime (clock state);
                    uColor := uColor m; uTexture := uTexture m |}).
Proof. reflexivity. Qed.

(** C10: the callback writes through [ref.current] without a guard.  With no
    material attached it throws a TypeError; it does not return with nothing
    done.  With a material attached it returns, the elapsed time written. *)
Theorem useFrame_callback_unguarded :
  forall (state : RootState F),
    (exists message,
        Wave_useFrame (@None (Uniforms F Image)) state
        = Throw (TypeError message))
    /\ Wave_useFrame (@None (Uniforms F Image)) state <> Return None
    /\ forall m : Uniforms F Image,
        Wave_useFrame (Some m) state
        = Return (Some {| uTime := getElapsedTime (clock state);
                          uColor := uColor m; uTexture := uTexture m |}).
Proof.
  intros state. repeat split.
  - eexists. reflexivity.
  - discriminate.
Qed.

Lemma frame_unmounted (state : RootState F) (h : Host F Image) :
  mounted h = None -> frame state h = h.
Proof. unfold frame. now intros ->. Qed.

Lemma frame_mounted (state : RootState F) (h : Host F Image) m :
  mounted h = Some m ->
  frame state h
  = {| network := network h;
       mounted := Some {| geometry := geometry m;
                          material :=
                            {| uTime := getElapsedTime (clock state);
                               uColor := uColor (material m);
                               uTexture := uTexture (material m) |} |};
       surfaced := surfaced h |}.
Proof. unfold frame. now intros ->. Qed.

Lemma frame_geometry (state : RootState F) (h : Host F Image) :
  map (@geometry F Image) (meshes (frame state h))
  = map (@geometry F Image) (meshes h).
Proof.
  unfold meshes. destruct (mounted h) as [m|] eqn:E.
  - now rewrite (frame_mounted state h E).
  - now rewrite (frame_unmounted state h E), E.
Qed.

(** X1: a second tick with the same frame state changes nothing. *)
Lemma frame_idempotent (state : RootState F) (h : Host F Image) :
  frame state (frame state h) = frame state h.
Proof.
  destruct (mounted h) as [m|] eqn:E.
  - rewrite (frame_mounted state h E). reflexivity.
  - now rewrite !(frame_unmounted state h E).
Qed.

(** C5: a display tick writes the clock's elapsed time into [uTime] of the
    mounted material and changes nothing else: geometry, tint colour and
    texture are as before, and so is everything the page holds besides the
    mesh. *)
Theorem frame_writes_only_uTime :
  forall (state : RootState F) (h : Host F Image),
    map (fun m => uTime (material m)) (meshes (frame state h))
      = map (fun _ => getElapsedTime (clock state)) (meshes h)
    /\ map (fun m => uColor (material m)) (meshes (frame state h))
      = map (fun m => uColor (material m)) (meshes h)
    /\ map (fun m => uTexture (material m)) (meshes (frame state h))
      = map (fun m => uTexture (material m)) (meshes h)
    /\ map (@geometry F Image) (meshes (frame state h))
      = map (@geometry F Image) (meshes h)
    /\ network (frame state h) = network h
    /\ surfaced (frame state h) = surfaced h.
Proof.
  intros state h. unfold meshes.
  destruct (mounted h) as [m|] eqn:E.
  - rewrite (frame_mounted state h E). cbn. repeat split; reflexivity.
  - rewrite (frame_unmounted state h E), E. repeat split; reflexivity.
Qed.

(** *** The page over time *)

Lemma start_unfold :
  start policy = {| network := @Pending Image; mounted := @None (Mesh F Image);
                    surfaced := [] |}.
Proof. reflexivity. Qed.

Lemma start_consistent : consistent policy (start (Image := Image) policy).
Proof. rewrite start_unfold. split; reflexivity. Qed.

Lemma commit_loaded (image : Image) (h : Host F Image) :
  mounted h = None ->
  commit policy (Loaded image) h
  = {| network := Loaded image;
       mounted := Some (wave_mesh (flit 0.0) image);
       surfaced := surfaced h |}.
Proof. unfold commit. rewrite App_loaded. now intros ->. Qed.

Lemma commit_failed (e : Error) (h : Host F Image) :
  mounted h = None ->
  commit policy (Failed e) h
  = {| network := Failed e;
       mounted := None;
       surfaced := surfaced h ++ match policy with
                                 | StaySuspended => []
                                 | Rethrow => [e]
                                 end |}.
Proof.
  intros Hm. unfold commit, App, Scene, Wave, useLoader.
  destruct policy; cbn; rewrite ?Hm, ?app_nil_r; reflexivity.
Qed.

Lemma step_consistent (h : Host F Image) (ev : Event F Image) :
  consistent policy h -> consistent policy (step policy h ev).
Proof.
  unfold consistent. intros H.
  destruct ev as [image | e | state]; cbn [step].
  - destruct (network h) eqn:N; try (rewrite N; exact H).
    destruct H as [Hm Hs]. rewrite (commit_loaded image h Hm). cbn.
    split; [now exists (flit 0.0) | exact Hs].
  - destruct (network h) eqn:N; try (rewrite N; exact H).
    destruct H as [Hm Hs]. rewrite (commit_failed e h Hm). cbn.
    rewrite Hs. split; reflexivity.
  - destruct (mounted h) as [m|] eqn:M.
    + rewrite (frame_mounted state h M). cbn.
      destruct (network h) as [ | image | e].
      * destruct H as [Hm _]. discriminate.
      * destruct H as [[t Hm] Hs]. split; [|exact Hs].
        exists (getElapsedTime (clock state)).
        inversion Hm; subst m. reflexivity.
      * destruct H as [Hm _]. discriminate.
    + rewrite (frame_unmounted state h M). rewrite M. exact H.
Qed.

Lemma steps_consistent (evs : list (Event F Image)) :
  forall h, consistent policy h -> consistent policy (fold_left (step policy) evs h).
Proof.
  induction evs as [|ev evs IH]; intros h H; cbn.
  - exact H.
  - apply IH. now apply step_consistent.
Qed.

Lemma run_consistent (evs : list (Event F Image)) :
  consistent policy (run policy evs).
Proof. apply steps_consistent. apply start_consistent. Qed.

Lemma frame_network (state : RootState F) (h : Host F Image) :
  network (frame state h) = network h.
Proof.
  destruct (mounted h) as [m|] eqn:M.
  - now rewrite (frame_mounted state h M).
  - now rewrite (frame_unmounted state h M).
Qed.

Lemma frames_network (states : list (RootState F)) :
  forall h : Host F Image,
    network (fold_left (step policy) (map Frame states) h) = network h.
Proof.
  induction states as [|s states IH]; intros h; cbn; [reflexivity|].
  rewrite IH. apply frame_network.
Qed.

Lemma settled_step (h : Host F Image) (ev : Event F Image) :
  network h <> Pending -> network (step policy h ev) = network h.
Proof.
  intros H. destruct ev as [image | e | state]; cbn [step].
  - destruct (network h) eqn:N; congruence.
  - destruct (network h) eqn:N; congruence.
  - apply frame_network.
Qed.

Lemma settled_steps (evs : list (Event F Image)) :
  forall h : Host F Image,
    network h <> Pending ->
    network (fold_left (step policy) evs h) = network h.
Proof.
  induction evs as [|ev evs IH]; intros h H; cbn; [reflexivity|].
  rewrite IH; rewrite (settled_step h ev H); auto.
Qed.

Lemma network_pending (states : list (RootState F)) :
  network (run policy (map (@Frame F Image) states)) = Pending.
Proof. unfold run. rewrite frames_network. reflexivity. Qed.

Lemma network_resolved (states : list (RootState F)) (image : Image) rest :
  network (run policy (map Frame states ++ LoadResolved image :: rest))
  = Loaded image.
Proof.
  unfold run. rewrite fold_left_app. cbn [fold_left].
  assert (N : network (fold_left (step policy) (map Frame states)
                                 (start (Image := Image) policy)) = Pending)
    by apply network_pending.
  assert (C := run_consistent (map Frame states)). unfold run in C.
  unfold consistent in C. rewrite N in C. destruct C as [Hm _].
  rewrite settled_steps; cbn [step]; rewrite N, (commit_loaded image _ Hm);
    cbn; congruence.
Qed.

Lemma network_rejected (states : list (RootState F)) (e : Error) rest :
  network (run policy (map (@Frame F Image) states ++ LoadRejected e :: rest))
  = Failed e.
Proof.
  unfold run. rewrite fold_left_app. cbn [fold_left].
  assert (N : network (fold_left (step policy) (map Frame states)
                                 (start (Image := Image) policy)) = Pending)
    by apply network_pending.
  assert (C := run_consistent (map Frame states)). unfold run in C.
  unfold consistent in C. rewrite N in C. destruct C as [Hm _].
  rewrite settled_steps; cbn [step]; rewrite N, (commit_failed e _ Hm);
    cbn; congruence.
Qed.

(** C6, as the code has it.  While the request is pending, whatever number
    of frames go by, the scene holds no mesh and nothing is reported.  Once
    the request has resolved, the scene holds exactly one mesh, with the
    plane geometry and the wave material around the loaded image, for good.
    Once it has failed, no mesh is ever created; [App] installs no handler of
    its own, so whether the failure is reported is up to the loader hook:
    nothing is reported if the hook stays suspended, and the error leaves
    [App] uncaught if the hook rethrows it. *)
Theorem suspense_lifecycle :
  forall (states : list (RootState F)) (image : Image) (e : Error)
         (rest : list (Event F Image)),
    let waiting := run policy (map (@Frame F Image) states) in
    let resolved := run policy (map Frame states ++ LoadResolved image :: rest) in
    let rejected := run policy (map Frame states ++ LoadRejected e :: rest) in
    (meshes waiting = [] /\ surfaced waiting = [])
    /\ ((exists t,
          meshes resolved
          = [{| geometry := {| width := 0.4; height := 0.6;
                               widthSegments := 16; heightSegments := 16 |};
                material := {| uTime := t; uColor := Color_name "hotpink";
                               uTexture := Texture_image image |} |}])
        /\ surfaced resolved = [])
    /\ (meshes rejected = []
        /\ surfaced rejected = match policy with
                               | StaySuspended => []
                               | Rethrow => [e]
                               end).
Proof.
  intros states image e rest waiting resolved rejected.
  assert (Cw := run_consistent (map Frame states)).
  assert (Cr := run_consistent (map Frame states ++ LoadResolved image :: rest)).
  assert (Cf := run_consistent (map Frame states ++ LoadRejected e :: rest)).
  unfold consistent in Cw, Cr, Cf.
  rewrite network_pending in Cw.
  rewrite network_resolved in Cr.
  rewrite network_rejected in Cf.
  fold waiting in Cw. fold resolved in Cr. fold rejected in Cf.
  unfold meshes.
  destruct Cw as [-> ->], Cr as [[t ->] ->], Cf as [-> ->].
  repeat split. now exists t.
Qed.

(** C7: the geometry is the plane of width 0.4 and height 0.6 with 16 by
    16 segments, once and for all.  In every state the page can reach,
    whatever the request has done and whatever times the frames carried,
    every mesh of the scene has that plane as its geometry; and once the
    request has resolved there is such a mesh: from then on, through every
    later event, the geometries in the scene are exactly that one plane. *)
Theorem geometry_is_fixed :
  forall (evs : list (Event F Image)) (states : list (RootState F))
         (image : Image) (rest : list (Event F Image)),
    Forall (fun m => geometry m = {| width := 0.4; height := 0.6;
                                     widthSegments := 16;
                                     heightSegments := 16 |})
           (meshes (run policy evs))
    /\ map (@geometry F Image)
           (meshes (run policy (map Frame states ++ LoadResolved image :: rest)))
       = [{| width := 0.4; height := 0.6;
             widthSegments := 16; heightSegments := 16 |}].
Proof.
  intros evs states image rest. split.
  - assert (C := run_consistent evs).
    unfold consistent in C. unfold meshes.
    destruct (network (run policy evs)) as [ | image' | e].
    + destruct C as [-> _]. constructor.
    + destruct C as [[t ->] _]. repeat constructor.
    + destruct C as [-> _]. constructor.
  - assert (C := run_consistent (map Frame states ++ LoadResolved image :: rest)).
    unfold consistent in C. rewrite network_resolved in C.
    unfold meshes. destruct C as [[t ->] _]. reflexivity.
Qed.

End ComponentProperties.

(** * The shader and the page on concrete inputs *)

Module Evaluated.
Import Exact Inputs.
Local Open Scope Q_scope.

Lemma exact_centre_arithmetic : @centre_arithmetic Q Float_Q.
Proof. split; reflexivity. Defined.

(** C1: the position the vertex stage outputs is not the displaced
    model-space position.  Under the camera of [Scene] the corner vertex at
    x = 0.2, y = 0.3 leaves the stage with x = 2.286 and y = 3.429. *)
Lemma corner_is_projected :
  let out := vertexShader snoise (pink_material 0) camera_builtins corner in
  x4 (gl_Position out) == 2.286
  /\ y4 (gl_Position out) == 3.429
  /\ ~ x4 (gl_Position out) == x3 (position corner)
  /\ ~ y4 (gl_Position out) == y3 (position corner).
Proof.
  cbv zeta. split; [|split; [|split]].
  - vm_compute. reflexivity.
  - vm_compute. reflexivity.
  - intros H. vm_compute in H. discriminate H.
  - intros H. vm_compute in H. discriminate H.
Qed.

(** The noise of glsl-noise at the origin is not zero. *)
Lemma snoise_origin :
  snoise (Vec3 0 0 0)
  = -267104821583887297249676756082494464011604998918685617941
     # 648000000000000000000000000000000000000000000000000000000.
Proof. vm_compute. reflexivity. Qed.

Lemma snoise_origin_bounds :
  -0.4123 < snoise (Vec3 0 0 0) < -0.4121.
Proof. rewrite snoise_origin. split; reflexivity. Qed.

(** C3: with the noise function the shader requires, the fragment at the
    centre vertex at elapsed time 0 is not the texture's sample at
    (0.5, 0.5): the wave term is not zero, and on the gradient image, whose
    red and green are the lookup coordinate, neither channel of the fragment
    has the value the image has at (0.5, 0.5). *)
Lemma centre_fragment_is_offset :
  let v := vertexShader snoise (pink_material 0) camera_builtins centre in
  let out := shade snoise texture2D (pink_material 0) camera_builtins centre in
  let sample := texture2D (uTexture (pink_material 0)) (Vec2 0.5 0.5) in
  ~ vWave (varyings v) == 0
  /\ ~ x4 (snd out) == x4 sample
  /\ ~ y4 (snd out) == y4 sample
  /\ x4 (snd out) == 0.5 + snoise (Vec3 0 0 0) * 0.7 * 0.1
  /\ y4 (snd out) == 0.5 + snoise (Vec3 0 0 0) * 0.7 * 0.1.
Proof.
  cbv zeta. split; [|split; [|split; [|split]]].
  - intros H. vm_compute in H. discriminate H.
  - intros H. vm_compute in H. discriminate H.
  - intros H. vm_compute in H. discriminate H.
  - vm_compute. reflexivity.
  - vm_compute. reflexivity.
Qed.

(** With a noise function that vanishes at the origin the centre fragment is
    the sample at (0.5, 0.5). *)
Lemma centre_fragment_ramp :
  snd (shade ramp texture2D
             (mkUniforms (flit 0) (Color_name "hotpink")
                         (Texture_image gradient_image))
             camera_builtins centre)
  = vec4_of_vec3 (rgb (texture2D (Texture_image gradient_image)
                                 (Vec2 (flit 0.5) (flit 0.5))))
                 (flit 1.0).
Proof.
  apply (centre_fragment ramp texture2D (Color_name "hotpink")
                         (Texture_image gradient_image) camera_builtins
                         exact_centre_arithmetic).
  reflexivity.
Defined.

(** C6: when the loader hook rethrows a failed request, the error leaves
    [App] uncaught: something is surfaced. *)
Lemma failed_load_is_surfaced :
  surfaced (run (F := Q) (Image := Image) Rethrow
                [tick 0; LoadRejected (LoadError url); tick 1])
  = [LoadError url]
  /\ surfaced (run (F := Q) (Image := Image) Rethrow
                   [tick 0; LoadRejected (LoadError url); tick 1])
     <> [].
Proof. split; [reflexivity | discriminate]. Qed.

End Evaluated.

(** * Further properties *)

(** ** What each stage reads *)

Section Flow.
Local Open Scope Q_scope.
Context {F : Type} {Fl : Float F}.
Variable Image : Type.
Variable snoise3 : vec3 F -> F.
Variable texture2D : Texture Image -> vec2 F -> vec4 F.

(** X2: of the three uniforms the vertex stage reads only [uTime], and the
    fragment stage only [uTexture].  Neither texture nor tint can move a
    vertex, and the elapsed time reaches a fragment's colour through the
    varying [vWave] alone: the fragment shader declares [uTime] and does not
    use it. *)
Theorem stages_read_one_uniform_each :
  forall (t t' : F) (c c' : Color F) (tex tex' : Texture Image)
         (b : Builtins F) (a : Attributes F) (v : Varyings F),
    vertexShader snoise3 (mkUniforms t c tex) b a
      = vertexShader snoise3 (mkUniforms t c' tex') b a
    /\ fragmentShader texture2D (mkUniforms t c tex) v
      = fragmentShader texture2D (mkUniforms t' c' tex) v.
Proof.
  intros t t' c c' tex tex' b a v. split.
  - unfold vertexShader. cbn [uTime]. reflexivity.
  - unfold fragmentShader. cbn [uTexture]. reflexivity.
Qed.
End Flow.

(** ** Suspension and errors across the components *)

Section Boundaries.
Context {F : Type} {Fl : Float F}.
Variable Image : Type.

Lemma Suspense_never_suspends (A : Type) (fallback : list A)
    (child : Render A) :
  Suspense fallback child <> Suspend.
Proof. destruct child; discriminate. Qed.

(** X6: whatever the loader hook does, neither [Scene] nor [App] suspends:
    the [Suspense] boundary inside [Scene] absorbs the suspension of
    [Wave]. *)
Theorem App_never_suspends :
  forall (policy : FailurePolicy) (net : Loading Image),
    Scene (F := F) policy net <> Suspend
    /\ App (F := F) policy net <> Suspend.
Proof.
  intros policy net.
  assert (S : Scene (F := F) policy net <> Suspend).
  { unfold Scene.
    destruct (Suspense [] (Wave policy net)) as [ms | | e] eqn:E;
      cbn; try discriminate.
    now apply Suspense_never_suspends in E. }
  split; [exact S|].
  unfold App. destruct (Scene policy net) as [c | | e] eqn:E; cbn;
    [discriminate | now contradiction S | discriminate].
Qed.

(** X7: [App] throws exactly when the loader hook inside [Wave] throws, and
    then the same error: nothing between the hook and the root catches,
    replaces or raises an error. *)
Theorem loader_error_escapes_App :
  forall (policy : FailurePolicy) (net : Loading Image) (e : Error),
    App (F := F) policy net = Throw e <-> useLoader policy net = Throw e.
Proof.
  intros policy net e. unfold App, Scene, Wave.
  destruct (useLoader policy net) as [image | | e']; cbn;
    split; intros H; try discriminate H; now inversion H.
Qed.
End Boundaries.

(** ** The mesh along a trace *)

Section TraceProperties.
Local Open Scope Q_scope.
Context {F : Type} {Fl : Float F}.
Variable Image : Type.
Variable policy : FailurePolicy.

Lemma frames_unmounted (states : list (RootState F)) :
  forall h : Host F Image,
    mounted h = None ->
    fold_left (step policy) (map Frame states) h = h.
Proof.
  induction states as [|s states IH]; intros h H; cbn; [reflexivity|].
  rewrite (frame_unmounted s h H). now apply IH.
Qed.

(** X8: display ticks that pass while the request is pending leave no
    trace: the page ends in the same state as if they had not happened. *)
Theorem frames_while_pending_leave_no_trace :
  forall (states : list (RootState F)) (evs : list (Event F Image)),
    run policy (map Frame states ++ evs) = run policy evs.
Proof.
  intros states evs. unfold run. rewrite fold_left_app.
  now rewrite frames_unmounted.
Qed.

Lemma mounted_steps (image : Image) (evs : list (Event F Image)) :
  forall (h : Host F Image) (t : F),
    network h = Loaded image ->
    mounted h = Some (wave_mesh t image) ->
    mounted (fold_left (step policy) evs h)
    = Some (wave_mesh (last_frame_time evs t) image).
Proof.
  induction evs as [|ev evs IH]; intros h t N M;
    cbn [fold_left last_frame_time].
  - exact M.
  - destruct ev as [image' | e | state]; cbn [step].
    + rewrite N. now apply IH.
    + rewrite N. now apply IH.
    + apply IH.
      * now rewrite frame_network.
      * now rewrite (frame_mounted state h M).
Qed.

(** X9: once the request has resolved, the scene holds the one mesh of
    [Wave] around the loaded image, and its [uTime] is the elapsed time of
    the last tick since then: the default 0.0 until the first tick, and
    never a value left over from an earlier tick.  Ticks before the
    resolution and later settlements of the request do not count. *)
Theorem uTime_is_last_frame_time :
  forall (states : list (RootState F)) (image : Image)
         (rest : list (Event F Image)),
    meshes (run policy (map Frame states ++ LoadResolved image :: rest))
    = [{| geometry := {| width := 0.4; height := 0.6;
                         widthSegments := 16; heightSegments := 16 |};
          material := {| uTime := last_frame_time rest (flit 0.0);
                         uColor := Color_name "hotpink";
                         uTexture := Texture_image image |} |}].
Proof.
  intros states image rest.
  unfold run, meshes. rewrite fold_left_app.
  rewrite (frames_unmounted states (start policy) eq_refl).
  cbn [fold_left step].
  rewrite start_unfold. cbn [network].
  rewrite (commit_loaded policy image (mkHost Pending None []) eq_refl).
  cbn [surfaced].
  rewrite mounted_steps with (t := flit 0.0) (image := image);
    reflexivity.
Qed.

(** X10: the defaults of [WaveShaderMaterial] for texture and tint are never
    what a mesh of the scene carries: in every state the page can reach,
    every mesh has a loaded image as its texture, not the empty
    [new THREE.Texture()], and the tint set by the prop, not the default
    black. *)
Theorem defaults_never_drawn :
  forall evs : list (Event F Image),
    Forall (fun m => uTexture (material m) <> Texture_new
                     /\ uColor (material m) = Color_name "hotpink"
                     /\ uColor (material m)
                        <> uColor (WaveShaderMaterial Image))
           (meshes (run policy evs)).
Proof.
  intros evs. assert (C := run_consistent policy evs).
  unfold consistent in C. unfold meshes.
  destruct (network (run policy evs)) as [ | image | e].
  - destruct C as [-> _]. constructor.
  - destruct C as [[t ->] _]. constructor; [|constructor].
    cbn. repeat split; discriminate.
  - destruct C as [-> _]. constructor.
Qed.
End TraceProperties.

(** ** What a frame draws *)

Section DrawingProperties.
Local Open Scope Q_scope.
Context {F : Type} {Fl : Float F}.
Variable Image : Type.
Variable snoise3 : vec3 F -> F.
Variable texture2D : Texture Image -> vec2 F -> vec4 F.



End DrawingProperties.
